(** * Diascore-App: the record/status catalog and the user session panel

    A shallow embedding of the two source units of the front-end:

    - the catalog module (the exported constants [columns] and
      [statusOptions], with the JSDoc typedef [AnswerSumRequest]);
    - [pages/UserPage.jsx]: the component function [UserPage] and its
      click handler [handleSignOut].

    The catalog is constant data.  The panel is modelled in a small
    state-and-exception monad over a world that holds the ambient session
    and the chronological list of calls made to the collaborators
    (identity provider, router, console). *)

From stdpp Require Import gmap strings list.

Open Scope string_scope.

(* ===================================================================== *)
(** ** Record/status catalog *)
(* ===================================================================== *)

Module Catalog.

(** Both exported arrays hold object literals of the shape
    [{ name, uid }]. *)
Record Entry := { name : string; uid : string }.

(** The JSDoc types used by the typedef. *)
Inductive JsDocType := TString | TNumber | TNumberArray.

(** [@typedef {Object} AnswerSumRequest]: its [@property] lines, in
    order, as (property name, type). *)
Definition AnswerSumRequest : list (string * JsDocType) :=
  [ ("patientName", TString);
    ("patient_id", TString);
    ("gender", TString);
    ("age", TNumber);
    ("birth_date", TString);
    ("text_filler_name", TString);
    ("diagnosisDate", TString);
    ("pORt", TString);
    ("kORs", TString);
    ("answers", TNumberArray);
    ("status", TString);
    ("avatar", TString) ].

(** [export const columns = [...]] *)
Definition columns : list Entry :=
  [ {| name := "PATIENT NAME"; uid := "patientName" |};
    {| name := "DIAGNOSIS DATE"; uid := "diagnosisDate" |};
    {| name := "STATUS"; uid := "status" |};
    {| name := "ACTIONS"; uid := "actions" |} ].

(** [export const statusOptions = [...]] *)
Definition statusOptions : list Entry :=
  [ {| name := "COMPLETED"; uid := "completed" |};
    {| name := "IN PROGRESS"; uid := "in_progress" |};
    {| name := "PENDING"; uid := "pending" |};
    {| name := "CANCELLED"; uid := "cancelled" |} ].

(** The uid column of an array of entries, in array order. *)
Definition uids (l : list Entry) : list string := uid <$> l.

(** The property names the typedef declares. *)
Definition declared_fields : list string := fst <$> AnswerSumRequest.

(** The sentinel uid of the column that projects no record field. *)
Definition actions_sentinel : string := "actions".

(** The header column of an array of entries, in array order. *)
Definition names (l : list Entry) : list string := name <$> l.

(** The declared type of a property of the typedef, if it declares it. *)
Definition field_type (key : string) : option JsDocType :=
  snd <$> List.find (fun kv => String.eqb (fst kv) key) AnswerSumRequest.

(** The columns that project a field of a record: all but the sentinel. *)
Definition data_columns : list Entry :=
  List.filter (fun c => negb (String.eqb (uid c) actions_sentinel)) columns.

End Catalog.

(* ===================================================================== *)
(** ** User session panel: values, world and effects *)
(* ===================================================================== *)

Module Panel.

(** The JavaScript values a session field can hold: the identity
    provider gives [email] and [displayName] as a string or [null], and a
    missing property reads as [undefined]. *)
Inductive JsVal := JUndefined | JNull | JString (s : string).

(** ToBoolean on these values: only a non-empty string is truthy. *)
Definition truthy (v : JsVal) : bool :=
  match v with
  | JString s => negb (String.eqb s "")
  | JUndefined | JNull => false
  end.

(** The operator [a || b]. *)
Definition js_or (a b : JsVal) : JsVal := if truthy a then a else b.

Record User := { email : JsVal; displayName : JsVal }.

(** What [useAuth()] hands out.  [user = None] stands for a [null] or
    [undefined] user, the only falsy values the context provides. *)
Record Session := { user : option User; loading : bool }.

(** A thrown value or rejection reason; its contents are opaque to the
    panel. *)
Record JsError := { message : string }.

(** How a promise settles.  A promise is represented by its settlement. *)
Inductive Settlement := Fulfilled | Rejected (reason : JsError).
Definition Promise := Settlement.

(** The handle imported from [../firebase/firebase]. *)
Inductive AuthHandle := auth.

Inductive ConsoleArg := LogStr (s : string) | LogErr (e : JsError).

(** Calls observed at the collaborators, and the resumption of an
    awaiting handler. *)
Inductive Event :=
| EvSignOut (h : AuthHandle)            (* signOut(h) was called *)
| EvSettled (s : Settlement)            (* the awaited promise settled *)
| EvNavigate (path : string)            (* navigate(path) was called *)
| EvConsoleError (args : list ConsoleArg). (* console.error(...args) *)

(** The ambient session and the calls made so far, oldest first. *)
Record World := { session : Session; events : list Event }.

(** The behaviour of the collaborators during one interaction: how the
    promise returned by [signOut] settles, and whether [navigate]
    throws. *)
Record Env := { signOut_settles : Settlement; navigate_throws : option JsError }.

Inductive Outcome (A : Type) := Returned (a : A) | Thrown (e : JsError).
Arguments Returned {A} a.
Arguments Thrown {A} e.

(** Computations: a world transformer that returns a value or throws. *)
Definition M (A : Type) : Type := World -> Outcome A * World.

Definition ret {A} (a : A) : M A := fun w => (Returned a, w).

Definition throw {A} (e : JsError) : M A := fun w => (Thrown e, w).

Definition bind {A B} (m : M A) (k : A -> M B) : M B :=
  fun w =>
    match m w with
    | (Returned a, w') => k a w'
    | (Thrown e, w') => (Thrown e, w')
    end.

(** [try { body } catch (error) { handler error }] *)
Definition try_catch {A} (body : M A) (handler : JsError -> M A) : M A :=
  fun w =>
    match body w with
    | (Returned a, w') => (Returned a, w')
    | (Thrown e, w') => handler e w'
    end.

Declare Scope js_scope.
Delimit Scope js_scope with js.
Notation "x <- c ;; k" := (bind c (fun x => k))
  (at level 100, c at next level, right associativity) : js_scope.
Notation "c ;; k" := (bind c (fun _ => k))
  (at level 100, right associativity) : js_scope.
Open Scope js_scope.

(** Record one call. *)
Definition emit (ev : Event) : M unit :=
  fun w => (Returned tt, {| session := session w; events := events w ++ [ev] |}).

(** Props of an element. *)
Inductive PropVal := PStr (s : string) | PNum (n : Z) | PFun (f : M unit).

#[local] Set Warnings "-register-all".

(** A React element tree: a child is a JavaScript value in a child
    position (JSX text is a string child) or an element. *)
Inductive Node :=
| Txt (v : JsVal)
| Elem (tag : string) (props : list (string * PropVal)) (children : list Node).

Definition text (s : string) : Node := Txt (JString s).

Section Collaborators.

Variable env : Env.

(** [signOut] from [firebase/auth]: returns a promise. *)
Definition signOut (h : AuthHandle) : M Promise :=
  emit (EvSignOut h) ;; ret (signOut_settles env).

(** [await p]: resumes once [p] has settled; a rejection is thrown at
    the await. *)
Definition await (p : Promise) : M unit :=
  emit (EvSettled p) ;;
  match p with
  | Fulfilled => ret tt
  | Rejected e => throw e
  end.

(** The function [useNavigate()] returns. *)
Definition navigate (path : string) : M unit :=
  emit (EvNavigate path) ;;
  match navigate_throws env with
  | None => ret tt
  | Some e => throw e
  end.

Definition console_error (args : list ConsoleArg) : M unit :=
  emit (EvConsoleError args).

Definition useAuth : M Session := fun w => (Returned (session w), w).

Definition useNavigate : M (string -> M unit) := ret navigate.

(** [const handleSignOut = async () => { ... }], closed over the
    [navigate] of the component.  [Thrown] as its outcome would be a
    rejection of the promise the async function returns. *)
Definition handleSignOut (navigate : string -> M unit) : M unit :=
  try_catch
    (p <- signOut auth ;;
     await p ;;
     navigate "/home")
    (fun error =>
       console_error [LogStr "Error signing out:"; LogErr error]).

(** [const UserPage = () => { ... }] *)
Definition UserPage : M Node :=
  s <- useAuth ;;
  let user := user s in
  let loading := loading s in
  navigate <- useNavigate ;;
  let handleSignOut := handleSignOut navigate in
  if loading then
    ret (Elem "div" [] [text "Loading user data..."])
  else
    ret
      (Elem "div"
         [("className", PStr "flex flex-col items-start w-screen bg-gradient-bg text-text-light min-h-screen")]
         [ Elem "div"
             [("className", PStr "flex justify-between items-center w-full px-4 sm:px-12 lg:px-12 py-4 bg-card-bg shadow-lg")]
             [ Elem "h3"
                 [("className", PStr "text-5xl sm:text-6xl font-island-moments text-primary-color font-semibold")]
                 [text "Diascore"];
               Elem "div" [("className", PStr "flex gap-4")]
                 [ Elem "button" []
                     [ Elem "ProfileButton"
                         [ ("fill", PStr "currentColor");
                           ("size", PNum 24);
                           ("className", PStr "transition-all duration-300 ease-in-out transform hover:scale-110 hover:text-primary-color") ]
                         [] ] ] ];
           Elem "div" [("className", PStr "mt-20 text-left mx-auto")]
             [ match user with
               | Some user =>
                   Elem "div" [("className", PStr "text-4xl")]
                     [ Elem "p" [] [text "You are successfully logged in as:"];
                       Elem "p" []
                         [ Elem "strong" [] [text "Email:"];
                           text " ";
                           Txt (email user) ];
                       Elem "p" []
                         [ Elem "strong" [] [text "Display Name:"];
                           text " ";
                           Txt (js_or (displayName user) (JString "N/A")) ];
                       text " " ]
               | None =>
                   Elem "p" [] [text "Loading user data..."]
               end;
               Elem "div" [("className", PStr "flex gap-4 mt-40 mx-44")]
                 [ Elem "GreenCoverButton"
                     [ ("text", PStr "Log Out");
                       ("defaultColor", PStr "black");
                       ("onClick", PFun handleSignOut) ]
                     [] ] ] ]).

End Collaborators.

(* ------------------------------------------------------------------- *)
(** *** Observations on element trees *)

Definition returned {A} (o : Outcome A) : option A :=
  match o with
  | Returned a => Some a
  | Thrown _ => None
  end.

(** The view the component returns in a world, if it returns one. *)
Definition render (env : Env) (w : World) : option Node :=
  returned (fst (UserPage env w)).

(** What a value in a child position contributes to the rendered text:
    a string is shown as it is, [null] and [undefined] show nothing. *)
Definition js_text (v : JsVal) : string :=
  match v with
  | JString s => s
  | JUndefined | JNull => ""
  end.

(** The rendered text of a tree, children left to right. *)
Fixpoint textContent (n : Node) : string :=
  match n with
  | Txt v => js_text v
  | Elem _ _ cs => foldr (fun c acc => textContent c +:+ acc) "" cs
  end.

(** [hay.includes(needle)] *)
Fixpoint includes (needle hay : string) : bool :=
  String.prefix needle hay ||
  match hay with
  | EmptyString => false
  | String _ rest => includes needle rest
  end.

(** The [i]-th child of an element. *)
Definition child (i : nat) (n : Node) : option Node :=
  match n with
  | Elem _ _ cs => cs !! i
  | Txt _ => None
  end.

(** The node reached by following child indices from the root. *)
Fixpoint descend (path : list nat) (n : Node) : option Node :=
  match path with
  | [] => Some n
  | i :: rest =>
      match child i n with
      | Some c => descend rest c
      | None => None
      end
  end.

Definition tag_of (n : Node) : option string :=
  match n with
  | Elem t _ _ => Some t
  | Txt _ => None
  end.

(** The value of a prop of an element. *)
Definition prop (key : string) (n : Node) : option PropVal :=
  match n with
  | Elem _ ps _ => snd <$> List.find (fun kv => String.eqb (fst kv) key) ps
  | Txt _ => None
  end.

(** All elements with a given tag, in document order. *)
Fixpoint elements_by_tag (t : string) (n : Node) : list Node :=
  match n with
  | Txt _ => []
  | Elem t' _ cs =>
      ((if String.eqb t' t then [n] else []) ++
       foldr (fun c acc => elements_by_tag t c ++ acc) [] cs)%list
  end.

(** The body of the panel: the second child of the root element. *)
Definition body_of (view : Node) : option Node := child 1 view.

(* ------------------------------------------------------------------- *)
(** *** Observations on runs *)

(** The calls a run added to the world. *)
Definition emitted (before after : World) : list Event :=
  drop (length (events before)) (events after).

(** The arguments of the navigation calls in a trace, in order. *)
Fixpoint navigations (tr : list Event) : list string :=
  match tr with
  | [] => []
  | EvNavigate path :: rest => path :: navigations rest
  | _ :: rest => navigations rest
  end.

(** The diagnostic log entries in a trace, in order. *)
Fixpoint log_entries (tr : list Event) : list (list ConsoleArg) :=
  match tr with
  | [] => []
  | EvConsoleError args :: rest => args :: log_entries rest
  | _ :: rest => log_entries rest
  end.

(** Every navigation call in the trace comes after the resumption from a
    fulfilled promise.  [seen] tells whether that resumption is already
    behind us. *)
Fixpoint navigates_only_after_fulfilment (seen : bool) (tr : list Event) : bool :=
  match tr with
  | [] => true
  | EvSettled Fulfilled :: rest => navigates_only_after_fulfilment true rest
  | EvNavigate _ :: rest => seen && navigates_only_after_fulfilment seen rest
  | _ :: rest => navigates_only_after_fulfilment seen rest
  end.

(* ------------------------------------------------------------------- *)
(** *** Sample collaborators, users and worlds *)

Definition network_error : JsError :=
  {| message := "auth/network-request-failed" |}.

(** The identity provider refuses the sign-out. *)
Definition rejecting : Env :=
  {| signOut_settles := Rejected network_error; navigate_throws := None |}.

(** Sign-out goes through and the router accepts the navigation. *)
Definition cooperative : Env :=
  {| signOut_settles := Fulfilled; navigate_throws := None |}.

Definition ada : User :=
  {| email := JString "a@b.com"; displayName := JString "Ada" |}.

Definition unnamed : User :=
  {| email := JString "a@b.com"; displayName := JUndefined |}.

Definition blank_name : User :=
  {| email := JString "a@b.com"; displayName := JString "" |}.

(** A world in which no call has been made yet. *)
Definition fresh (u : option User) (l : bool) : World :=
  {| session := {| user := u; loading := l |}; events := [] |}.

(* ------------------------------------------------------------------- *)
(** *** Further observations: calls, handlers and repeated invocations *)

(** The handles [signOut] was called with in a trace, in order. *)
Fixpoint signOut_calls (tr : list Event) : list AuthHandle :=
  match tr with
  | [] => []
  | EvSignOut h :: rest => h :: signOut_calls rest
  | _ :: rest => signOut_calls rest
  end.


Definition is_handler (kv : string * PropVal) : bool :=
  match snd kv with
  | PFun _ => true
  | PStr _ | PNum _ => false
  end.

(** Every function-valued prop of a tree, as (tag of the element, name of
    the prop), in document order. *)
Fixpoint handler_props (n : Node) : list (string * string) :=
  match n with
  | Txt _ => []
  | Elem t ps cs =>
      ((fun kv => (t, fst kv)) <$> List.filter is_handler ps) ++
      foldr (fun c acc => handler_props c ++ acc)%list [] cs
  end.


(** [n] invocations of the handler, each one run to completion before the
    next starts. *)
Fixpoint invoke_times (env : Env) (n : nat) : M unit :=
  match n with
  | O => ret tt
  | S k => handleSignOut env (navigate env) ;; invoke_times env k
  end.

(** The calls one invocation of the handler makes, observed from a world
    without earlier calls. *)
Definition one_run_calls (env : Env) : list Event :=
  events (snd (handleSignOut env (navigate env) (fresh None false))).

End Panel.

(* ===================================================================== *)
(** ** Properties of the catalog *)
(* ===================================================================== *)

Import Catalog Panel.

(** C5: [statusOptions] has exactly four entries, their [uid]s are pairwise
    distinct, and as a set they are
    {completed, in_progress, pending, cancelled}. *)
Theorem statusOptions_four_distinct_uids :
  length statusOptions = 4%nat ∧
  NoDup (uids statusOptions) ∧
  list_to_set (uids statusOptions) =@{gset string}
    {[ "completed"; "in_progress"; "pending"; "cancelled" ]}.
Proof.
  split; [reflexivity |]. split.
  - apply (bool_decide_unpack _). by vm_compute.
  - cbn. set_solver.
Qed.

(** C6: [columns] is a sequence of exactly four entries, with the [uid]s
    patientName, diagnosisDate, status, actions (in that order), and every
    entry has a non-empty [name]. *)
Theorem columns_four_named :
  length columns = 4%nat ∧
  uids columns = ["patientName"; "diagnosisDate"; "status"; "actions"] ∧
  list_to_set (uids columns) =@{gset string}
    {[ "patientName"; "diagnosisDate"; "status"; "actions" ]} ∧
  Forall (λ c, name c ≠ "" ∧ (0 < String.length (name c))%nat) columns.
Proof.
  split; [reflexivity |]. split; [reflexivity |]. split.
  - cbn. set_solver.
  - repeat constructor; cbn; (done || lia).
Qed.

(** C8: the [uid] of every column is the sentinel [actions] or a property
    declared by the [AnswerSumRequest] typedef; patientName, diagnosisDate
    and status are declared, [actions] is not. *)
Theorem columns_uid_sentinel_or_field :
  Forall (λ c, uid c = actions_sentinel ∨ uid c ∈ declared_fields) columns ∧
  "patientName" ∈ declared_fields ∧
  "diagnosisDate" ∈ declared_fields ∧
  "status" ∈ declared_fields ∧
  actions_sentinel ∉ declared_fields.
Proof.
  split; [repeat constructor; cbn; set_solver |].
  repeat split; apply (bool_decide_unpack _); by vm_compute.
Qed.

(* ===================================================================== *)
(** ** Strings: append and [includes] *)
(* ===================================================================== *)

Lemma append_assoc (a b c : string) : (a +:+ b) +:+ c = a +:+ b +:+ c.
Proof.
  induction a as [|x a IH]; [done |].
  change (String x ((a +:+ b) +:+ c) = String x (a +:+ b +:+ c)). by rewrite IH.
Qed.

Lemma append_nil_r (a : string) : a +:+ "" = a.
Proof.
  induction a as [|x a IH]; [done |].
  change (String x (a +:+ "") = String x a). by rewrite IH.
Qed.

Lemma prefix_append (n b : string) : String.prefix n (n +:+ b) = true.
Proof.
  induction n as [|c n IH]; simpl.
  - by destruct b.
  - destruct (Ascii.ascii_dec c c); [exact IH | congruence].
Qed.

Lemma prefix_inv (n h : string) :
  String.prefix n h = true → ∃ b, h = n +:+ b.
Proof.
  revert h. induction n as [|c n IH]; intros h H.
  - by exists h.
  - destruct h as [|c' h]; simpl in H; [discriminate |].
    destruct (Ascii.ascii_dec c c') as [->|]; [| discriminate].
    destruct (IH _ H) as [b ->]. by exists b.
Qed.

(** [includes] is the substring test. *)
Lemma includes_spec (n h : string) :
  includes n h = true ↔ ∃ a b, h = a +:+ n +:+ b.
Proof.
  split.
  - induction h as [|c h IH]; cbn [includes]; intros H.
    + apply orb_true_iff in H as [H | H]; [| discriminate].
      destruct (prefix_inv _ _ H) as [b Hb]. by exists "", b.
    + apply orb_true_iff in H as [H | H].
      * destruct (prefix_inv _ _ H) as [b Hb]. by exists "", b.
      * destruct (IH H) as (a & b & ->). by exists (String c a), b.
  - intros (a & b & ->). induction a as [|c a IH].
    + change ("" +:+ n +:+ b) with (n +:+ b).
      destruct (n +:+ b) eqn:E; cbn [includes]; rewrite <- E, prefix_append;
        reflexivity.
    + change (String c a +:+ n +:+ b) with (String c (a +:+ n +:+ b)).
      cbn [includes]. rewrite IH. apply orb_true_r.
Qed.

Lemma includes_middle (a n b : string) : includes n (a +:+ n +:+ b) = true.
Proof. apply includes_spec. by exists a, b. Qed.

Lemma includes_empty (h : string) : includes "" h = true.
Proof. apply includes_spec. by exists "", h. Qed.

Example includes_fallback_label : includes "N/A" "Display Name: N/A" = true.
Proof. reflexivity. Qed.

Example includes_no_fallback : includes "N/A" "Display Name: Ada" = false.
Proof. reflexivity. Qed.

(* ===================================================================== *)
(** ** Truthiness and the fallback operator *)
(* ===================================================================== *)

Lemma truthy_nonempty (s : string) : s ≠ "" → truthy (JString s) = true.
Proof. intros H. cbn. by apply negb_true_iff, String.eqb_neq. Qed.

Lemma truthy_inv (v : JsVal) :
  truthy v = true → ∃ s, v = JString s ∧ s ≠ "".
Proof.
  destruct v as [| |s]; cbn; try discriminate.
  intros H%negb_true_iff%String.eqb_neq. eauto.
Qed.

Lemma js_or_falsy (a b : JsVal) : truthy a = false → js_or a b = b.
Proof. unfold js_or. by intros ->. Qed.

Lemma js_or_truthy (a b : JsVal) : truthy a = true → js_or a b = a.
Proof. unfold js_or. by intros ->. Qed.

(* ===================================================================== *)
(** ** Runs of the sign-out handler *)
(* ===================================================================== *)

Lemma emitted_append (w : World) (s : Session) (l : list Event) :
  emitted w {| session := s; events := events w ++ l |} = l.
Proof. unfold emitted. simpl. apply drop_app_length. Qed.

(** One run of the handler, in every environment: the handler returns
    normally, leaves the session alone and appends the calls below. *)
Lemma handleSignOut_run (env : Env) (w : World) :
  handleSignOut env (navigate env) w =
  (Returned tt,
   {| session := session w;
      events :=
        events w ++
        match signOut_settles env, navigate_throws env with
        | Fulfilled, None =>
            [EvSignOut auth; EvSettled Fulfilled; EvNavigate "/home"]
        | Fulfilled, Some e =>
            [EvSignOut auth; EvSettled Fulfilled; EvNavigate "/home";
             EvConsoleError [LogStr "Error signing out:"; LogErr e]]
        | Rejected e, _ =>
            [EvSignOut auth; EvSettled (Rejected e);
             EvConsoleError [LogStr "Error signing out:"; LogErr e]]
        end |}).
Proof.
  destruct env as [[|e] [e'|]]; destruct w as [s tr];
    cbv [handleSignOut try_catch bind signOut await navigate console_error
         emit ret throw signOut_settles navigate_throws session events];
    rewrite <- ?app_assoc; reflexivity.
Qed.

Example run_rejecting :
  handleSignOut rejecting (navigate rejecting) (fresh (Some ada) false) =
  (Returned tt,
   {| session := {| user := Some ada; loading := false |};
      events := [EvSignOut auth; EvSettled (Rejected network_error);
                 EvConsoleError [LogStr "Error signing out:";
                                 LogErr network_error]] |}).
Proof. reflexivity. Qed.

Example run_cooperative :
  handleSignOut cooperative (navigate cooperative) (fresh (Some ada) false) =
  (Returned tt,
   {| session := {| user := Some ada; loading := false |};
      events := [EvSignOut auth; EvSettled Fulfilled; EvNavigate "/home"] |}).
Proof. reflexivity. Qed.

(** In no environment does the handler navigate before the awaited promise
    has been fulfilled, and after a rejection it does not navigate at all. *)
Lemma navigate_requires_fulfilment (env : Env) (w : World) :
  let w' := snd (handleSignOut env (navigate env) w) in
  navigates_only_after_fulfilment false (emitted w w') = true ∧
  (∀ e, signOut_settles env = Rejected e → navigations (emitted w w') = []).
Proof.
  cbv zeta. rewrite handleSignOut_run. cbn [snd]. rewrite emitted_append.
  split; [| intros e ->; reflexivity].
  by destruct (signOut_settles env), (navigate_throws env).
Qed.

(* ===================================================================== *)
(** ** Rendering *)
(* ===================================================================== *)

(** Rendering returns a view and makes no call. *)
Lemma UserPage_pure (env : Env) (w : World) :
  ∃ view, UserPage env w = (Returned view, w).
Proof.
  unfold UserPage, bind, useAuth, useNavigate, ret.
  destruct (loading (session w)); eauto.
Qed.

(** The view depends on the world through the session only. *)
Lemma UserPage_session (env : Env) (w w' : World) :
  session w' = session w → fst (UserPage env w') = fst (UserPage env w).
Proof.
  intros H. unfold UserPage, bind, useAuth, useNavigate, ret. rewrite H.
  by destruct (loading (session w)).
Qed.

Example render_loading :
  render cooperative (fresh (Some ada) true) =
  Some (Elem "div" [] [text "Loading user data..."]).
Proof. reflexivity. Qed.

Example render_ada_text :
  textContent <$> render cooperative (fresh (Some ada) false) =
  Some "DiascoreYou are successfully logged in as:Email: a@b.comDisplay Name: Ada ".
Proof. reflexivity. Qed.

Example render_unnamed_text :
  textContent <$> render cooperative (fresh (Some unnamed) false) =
  Some "DiascoreYou are successfully logged in as:Email: a@b.comDisplay Name: N/A ".
Proof. reflexivity. Qed.

Example render_signed_out_text :
  textContent <$> render cooperative (fresh None false) =
  Some "DiascoreLoading user data...".
Proof. reflexivity. Qed.

(** With a user and [loading] false: where the display name is shown, and
    the rendered text. *)
Lemma displayName_slot (env : Env) (w : World) (e d : JsVal) :
  session w = {| user := Some {| email := e; displayName := d |};
                 loading := false |} →
  ∃ view, UserPage env w = (Returned view, w) ∧
          descend [1; 0; 2; 2] view = Some (Txt (js_or d (JString "N/A"))) ∧
          textContent view =
            "Diascore" +:+ "You are successfully logged in as:" +:+
            "Email:" +:+ " " +:+ js_text e +:+
            "Display Name:" +:+ " " +:+ js_text (js_or d (JString "N/A")) +:+ " ".
Proof.
  intros Hs. unfold UserPage, bind, useAuth, useNavigate, ret.
  rewrite Hs. cbn [loading user].
  eexists. split; [reflexivity |]. split; [reflexivity |].
  cbn. by rewrite ?append_assoc, ?append_nil_r.
Qed.

(* ===================================================================== *)
(** ** The sign-out action *)
(* ===================================================================== *)

(** C1: whenever the promise returned by [signOut] rejects, one invocation
    of the handler returns normally (the rejection is not rethrown), makes
    no navigation call, writes exactly one diagnostic log entry (the
    message and the rejection reason), and leaves the session, hence what
    the panel renders, as it was. *)
Theorem handleSignOut_rejected (env : Env) (w : World) (e : JsError) :
  signOut_settles env = Rejected e →
  ∃ w', handleSignOut env (navigate env) w = (Returned tt, w') ∧
        navigations (emitted w w') = [] ∧
        log_entries (emitted w w') = [[LogStr "Error signing out:"; LogErr e]] ∧
        session w' = session w ∧
        fst (UserPage env w') = fst (UserPage env w).
Proof.
  intros Hrej. eexists. split; [apply handleSignOut_run |].
  rewrite emitted_append, Hrej. repeat split.
  by apply UserPage_session.
Qed.

Lemma handleSignOut_rejected_witness :
  signOut_settles rejecting = Rejected network_error ∧
  ∃ w', handleSignOut rejecting (navigate rejecting) (fresh (Some ada) false)
          = (Returned tt, w') ∧
        navigations (emitted (fresh (Some ada) false) w') = [] ∧
        log_entries (emitted (fresh (Some ada) false) w')
          = [[LogStr "Error signing out:"; LogErr network_error]] ∧
        session w' = session (fresh (Some ada) false) ∧
        fst (UserPage rejecting w')
          = fst (UserPage rejecting (fresh (Some ada) false)).
Proof.
  split; [reflexivity |].
  apply (handleSignOut_rejected rejecting (fresh (Some ada) false) network_error).
  reflexivity.
Defined.

(** C2: whenever the promise returned by [signOut] is fulfilled, one
    invocation of the handler makes exactly one navigation call, with the
    path [/home]; the call comes after [signOut] was called and after the
    handler resumed from the fulfilled promise. *)
Theorem handleSignOut_fulfilled (env : Env) (w : World) :
  signOut_settles env = Fulfilled →
  ∃ w', handleSignOut env (navigate env) w = (Returned tt, w') ∧
        navigations (emitted w w') = ["/home"] ∧
        (∃ rest, emitted w w' =
                 EvSignOut auth :: EvSettled Fulfilled ::
                 EvNavigate "/home" :: rest) ∧
        navigates_only_after_fulfilment false (emitted w w') = true.
Proof.
  intros Hful. eexists. split; [apply handleSignOut_run |].
  rewrite emitted_append, Hful.
  destruct (navigate_throws env); repeat split; eauto.
Qed.

Lemma handleSignOut_fulfilled_witness :
  signOut_settles cooperative = Fulfilled ∧
  ∃ w', handleSignOut cooperative (navigate cooperative) (fresh (Some ada) false)
          = (Returned tt, w') ∧
        navigations (emitted (fresh (Some ada) false) w') = ["/home"] ∧
        (∃ rest, emitted (fresh (Some ada) false) w' =
                 EvSignOut auth :: EvSettled Fulfilled ::
                 EvNavigate "/home" :: rest) ∧
        navigates_only_after_fulfilment false
          (emitted (fresh (Some ada) false) w') = true.
Proof.
  split; [reflexivity |].
  apply (handleSignOut_fulfilled cooperative (fresh (Some ada) false)).
  reflexivity.
Defined.

(* ===================================================================== *)
(** ** The render branches *)
(* ===================================================================== *)

(** C3: with [loading] true, whatever the user, the component returns
    [<div>Loading user data...</div>] and nothing else, and rendering
    leaves the world as it was: no call is made. *)
Theorem UserPage_loading (env : Env) (w : World) :
  loading (session w) = true →
  UserPage env w = (Returned (Elem "div" [] [text "Loading user data..."]), w) ∧
  emitted w (snd (UserPage env w)) = [].
Proof.
  intros H. unfold UserPage, bind, useAuth, useNavigate, ret. rewrite H.
  split; [reflexivity |]. unfold emitted. cbn [snd]. apply drop_all.
Qed.

Lemma UserPage_loading_witness :
  loading (session (fresh (Some ada) true)) = true ∧
  UserPage cooperative (fresh (Some ada) true) =
    (Returned (Elem "div" [] [text "Loading user data..."]),
     fresh (Some ada) true) ∧
  emitted (fresh (Some ada) true)
    (snd (UserPage cooperative (fresh (Some ada) true))) = [].
Proof.
  split; [reflexivity |].
  apply (UserPage_loading cooperative (fresh (Some ada) true)).
  reflexivity.
Defined.

(** C4: with [loading] false and a user present, the display-name line
    shows the display name when there is one (a non-empty string [s] is the
    text child of that line, and the rendered text includes it), and shows
    the literal N/A when the display name is [undefined] (or [null]).  For
    the user
    a@b.com / Ada the rendered text includes Ada and does not include N/A;
    for a@b.com without display name it includes N/A. *)
Theorem UserPage_displayName (env : Env) (w : World) (e d : JsVal) :
  session w = {| user := Some {| email := e; displayName := d |};
                 loading := false |} →
  ∃ view, UserPage env w = (Returned view, w) ∧
    (∀ s, d = JString s → s ≠ "" → descend [1; 0; 2; 2] view = Some (text s)) ∧
    (∀ s, d = JString s → includes s (textContent view) = true) ∧
    (d = JUndefined ∨ d = JNull →
       descend [1; 0; 2; 2] view = Some (text "N/A") ∧
       includes "N/A" (textContent view) = true) ∧
    (e = JString "a@b.com" → d = JString "Ada" →
       includes "Ada" (textContent view) = true ∧
       includes "N/A" (textContent view) = false) ∧
    (e = JString "a@b.com" → d = JUndefined →
       includes "N/A" (textContent view) = true).
Proof.
  intros Hs.
  destruct (displayName_slot env w e d Hs) as (view & Hrun & Hslot & Htxt).
  exists view. split; [exact Hrun |]. rewrite Hslot, Htxt. clear Hrun Hslot Htxt.
  split; [| split; [| split; [| split]]].
  - intros s -> Hne. by rewrite js_or_truthy by by apply truthy_nonempty.
  - intros s ->. destruct (decide (s = "")) as [-> | Hne]; [apply includes_empty |].
    rewrite js_or_truthy by by apply truthy_nonempty. cbn [js_text].
    rewrite <- 6!append_assoc. apply includes_middle.
  - intros [-> | ->]; (split; [reflexivity |]); cbn [js_or truthy js_text];
      rewrite <- 6!append_assoc; apply includes_middle.
  - intros -> ->. by vm_compute.
  - intros -> ->. by vm_compute.
Qed.

Lemma UserPage_displayName_witness :
  ∃ view, UserPage cooperative (fresh (Some ada) false)
            = (Returned view, fresh (Some ada) false) ∧
          descend [1; 0; 2; 2] view = Some (text "Ada") ∧
          includes "Ada" (textContent view) = true ∧
          includes "N/A" (textContent view) = false.
Proof.
  destruct (UserPage_displayName cooperative (fresh (Some ada) false)
              (JString "a@b.com") (JString "Ada") eq_refl)
    as (view & Hrun & Hslot & _ & _ & Hada & _).
  exists view. split; [exact Hrun |]. split.
  - apply (Hslot "Ada"); [reflexivity | discriminate].
  - apply Hada; reflexivity.
Defined.

(** C7: with [loading] false, the body of the panel always holds the
    sign-out control (the one [GreenCoverButton], labelled Log Out, whose
    [onClick] is [handleSignOut]), whether or not a user is present; and
    when no user is present the first child of the body is the paragraph
    [Loading user data...], so this placeholder is reached with [loading]
    false. *)
Theorem UserPage_body_when_not_loading (env : Env) (w : World) :
  loading (session w) = false →
  ∃ view body,
    UserPage env w = (Returned view, w) ∧
    body_of view = Some body ∧
    (user (session w) = None →
       child 0 body = Some (Elem "p" [] [text "Loading user data..."]) ∧
       includes "Loading user data..." (textContent body) = true) ∧
    descend [1; 0] body =
      Some (Elem "GreenCoverButton"
              [ ("text", PStr "Log Out");
                ("defaultColor", PStr "black");
                ("onClick", PFun (handleSignOut env (navigate env))) ]
              []) ∧
    length (elements_by_tag "GreenCoverButton" body) = 1%nat.
Proof.
  intros Hl. unfold UserPage, bind, useAuth, useNavigate, ret. rewrite Hl.
  destruct (user (session w)) as [u|]; eexists _, _;
    (split; [reflexivity |]); (split; [reflexivity |]);
    (split; [| split; reflexivity]).
  - discriminate.
  - intros _. split; reflexivity.
Qed.

Lemma UserPage_body_when_not_loading_witness :
  loading (session (fresh None false)) = false ∧
  ∃ view body,
    UserPage rejecting (fresh None false) = (Returned view, fresh None false) ∧
    body_of view = Some body ∧
    child 0 body = Some (Elem "p" [] [text "Loading user data..."]) ∧
    (descend [1; 0] body ≫= prop "text") = Some (PStr "Log Out").
Proof.
  split; [reflexivity |].
  destruct (UserPage_body_when_not_loading rejecting (fresh None false) eq_refl)
    as (view & body & Hrun & Hbody & Hnone & Hctl & _).
  exists view, body. split; [exact Hrun |]. split; [exact Hbody |]. split.
  - apply Hnone. reflexivity.
  - rewrite Hctl. reflexivity.
Defined.

(** C9: with [loading] false and a user whose display name is the empty
    string, the display-name line shows the literal N/A and not the empty
    name: the fallback of [||] is taken for every falsy display name
    ([undefined], [null] and the empty string alike). *)
Theorem UserPage_empty_displayName (env : Env) (w : World) (e : JsVal) :
  session w = {| user := Some {| email := e; displayName := JString "" |};
                 loading := false |} →
  ∃ view line,
    UserPage env w = (Returned view, w) ∧
    descend [1; 0; 2] view = Some line ∧
    child 2 line = Some (text "N/A") ∧
    child 2 line ≠ Some (text "") ∧
    textContent line = "Display Name: N/A" ∧
    includes "N/A" (textContent view) = true ∧
    (∀ d, truthy d = false → js_or d (JString "N/A") = JString "N/A").
Proof.
  intros Hs. unfold UserPage, bind, useAuth, useNavigate, ret.
  rewrite Hs. cbn [loading user].
  eexists _, _. split; [reflexivity |]. split; [reflexivity |].
  split; [reflexivity |]. split; [discriminate |]. split; [reflexivity |].
  split; [| intros d; apply js_or_falsy].
  cbn. apply includes_spec.
  exists ("Diascore" +:+ "You are successfully logged in as:" +:+
          "Email:" +:+ " " +:+ js_text e +:+ "Display Name:" +:+ " "), " ".
  by rewrite ?append_assoc.
Qed.

Lemma UserPage_empty_displayName_witness :
  ∃ view line,
    UserPage cooperative (fresh (Some blank_name) false)
      = (Returned view, fresh (Some blank_name) false) ∧
    descend [1; 0; 2] view = Some line ∧
    child 2 line = Some (text "N/A") ∧
    textContent line = "Display Name: N/A".
Proof.
  destruct (UserPage_empty_displayName cooperative
              (fresh (Some blank_name) false) (JString "a@b.com") eq_refl)
    as (view & line & Hrun & Hline & Hslot & _ & Htxt & _).
  by exists view, line.
Defined.

(** C10: the placeholder returned when [loading] is true and the fallback
    paragraph rendered when [loading] is false and no user is present carry
    the same literal text, [Loading user data...]: the very same text
    child, hence the same rendered text. *)
Theorem loading_placeholders_same_text (env : Env) (w1 w2 : World) :
  loading (session w1) = true →
  loading (session w2) = false →
  user (session w2) = None →
  ∃ placeholder view fallback,
    UserPage env w1 = (Returned placeholder, w1) ∧
    UserPage env w2 = (Returned view, w2) ∧
    descend [1; 0] view = Some fallback ∧
    child 0 placeholder = Some (text "Loading user data...") ∧
    child 0 fallback = Some (text "Loading user data...") ∧
    textContent placeholder = "Loading user data..." ∧
    textContent fallback = "Loading user data..." ∧
    textContent placeholder = textContent fallback.
Proof.
  intros H1 H2 Hu. unfold UserPage, bind, useAuth, useNavigate, ret.
  rewrite H1, H2, Hu. eexists _, _, _. repeat split.
Qed.

Lemma loading_placeholders_same_text_witness :
  ∃ placeholder view fallback,
    UserPage cooperative (fresh (Some ada) true)
      = (Returned placeholder, fresh (Some ada) true) ∧
    UserPage cooperative (fresh None false)
      = (Returned view, fresh None false) ∧
    descend [1; 0] view = Some fallback ∧
    textContent placeholder = textContent fallback.
Proof.
  destruct (loading_placeholders_same_text cooperative
              (fresh (Some ada) true) (fresh None false)
              eq_refl eq_refl eq_refl)
    as (p & v & f & Hp & Hv & Hf & _ & _ & _ & _ & Heq).
  by exists p, v, f.
Defined.

(* ===================================================================== *)
(** ** More on the sign-out handler *)
(* ===================================================================== *)

(** The observations distribute over the concatenation of traces. *)
Lemma signOut_calls_app (a b : list Event) :
  signOut_calls (a ++ b) = (signOut_calls a ++ signOut_calls b)%list.
Proof. induction a as [|[] a IH]; cbn; by rewrite ?IH. Qed.

Lemma navigations_app (a b : list Event) :
  navigations (a ++ b) = (navigations a ++ navigations b)%list.
Proof. induction a as [|[] a IH]; cbn; by rewrite ?IH. Qed.

Lemma log_entries_app (a b : list Event) :
  log_entries (a ++ b) = (log_entries a ++ log_entries b)%list.
Proof. induction a as [|[] a IH]; cbn; by rewrite ?IH. Qed.

(** One invocation appends the same calls whatever the world it starts in. *)
Lemma handleSignOut_calls (env : Env) (w : World) :
  handleSignOut env (navigate env) w =
  (Returned tt,
   {| session := session w; events := events w ++ one_run_calls env |}).
Proof.
  rewrite handleSignOut_run. unfold one_run_calls. rewrite handleSignOut_run.
  reflexivity.
Qed.

(** [n] invocations append [n] copies of the calls of one invocation. *)
Lemma invoke_times_run (env : Env) (n : nat) (w : World) :
  invoke_times env n w =
  (Returned tt,
   {| session := session w;
      events := events w ++ mjoin (replicate n (one_run_calls env)) |}).
Proof.
  revert w. induction n as [|n IH]; intros w.
  - cbn. rewrite app_nil_r. by destruct w.
  - cbn [invoke_times]. unfold bind. rewrite handleSignOut_calls, IH.
    cbn [session events replicate mjoin]. by rewrite <- app_assoc.
Qed.


(** X2: the [catch] also covers [navigate]: when the sign-out is fulfilled
    and [navigate] throws, the handler has made its one navigation call and
    then logs the router's error under the message [Error signing out:]. *)
Theorem handleSignOut_logs_navigate_failure (env : Env) (w : World) (e : JsError) :
  signOut_settles env = Fulfilled →
  navigate_throws env = Some e →
  ∃ w', handleSignOut env (navigate env) w = (Returned tt, w') ∧
        emitted w w' =
          [EvSignOut auth; EvSettled Fulfilled; EvNavigate "/home";
           EvConsoleError [LogStr "Error signing out:"; LogErr e]].
Proof.
  intros Hs Hn. eexists. split; [apply handleSignOut_run |].
  by rewrite emitted_append, Hs, Hn.
Qed.

Lemma handleSignOut_logs_navigate_failure_witness :
  ∃ w', handleSignOut
          {| signOut_settles := Fulfilled; navigate_throws := Some network_error |}
          (navigate {| signOut_settles := Fulfilled;
                       navigate_throws := Some network_error |})
          (fresh None false) = (Returned tt, w') ∧
        emitted (fresh None false) w' =
          [EvSignOut auth; EvSettled Fulfilled; EvNavigate "/home";
           EvConsoleError [LogStr "Error signing out:"; LogErr network_error]].
Proof.
  apply (handleSignOut_logs_navigate_failure
           {| signOut_settles := Fulfilled; navigate_throws := Some network_error |}
           (fresh None false) network_error); reflexivity.
Defined.



(** [n] invocations call [signOut] [n] times. *)
Lemma mjoin_replicate_signOut_calls (env : Env) (n : nat) :
  signOut_calls (mjoin (replicate n (one_run_calls env))) = replicate n auth.
Proof.
  induction n as [|n IH]; [done |].
  change (mjoin (replicate (S n) (one_run_calls env))) with (one_run_calls env ++ mjoin (replicate n (one_run_calls env)))%list. rewrite signOut_calls_app, IH.
  by destruct env as [[|e] [e'|]].
Qed.

(** X5: the handler keeps no state between invocations: [n] invocations,
    each run to completion, call [signOut] [n] times; with a fulfilled
    sign-out they navigate to [/home] [n] times, and with a rejected one
    they never navigate and log [n] entries. *)
Theorem invoke_times_no_guard (env : Env) (n : nat) (w : World) :
  ∃ w', invoke_times env n w = (Returned tt, w') ∧
        session w' = session w ∧
        signOut_calls (emitted w w') = replicate n auth ∧
        (signOut_settles env = Fulfilled →
           navigations (emitted w w') = replicate n "/home") ∧
        (∀ e, signOut_settles env = Rejected e →
           navigations (emitted w w') = [] ∧
           log_entries (emitted w w') =
             replicate n [LogStr "Error signing out:"; LogErr e]).
Proof.
  eexists. split; [apply invoke_times_run |]. rewrite emitted_append.
  split; [done |]. split; [apply mjoin_replicate_signOut_calls |]. split.
  - intros Hs. induction n as [|n IH]; [done |].
    change (mjoin (replicate (S n) (one_run_calls env))) with (one_run_calls env ++ mjoin (replicate n (one_run_calls env)))%list. rewrite navigations_app, IH.
    destruct env as [[|e] [e'|]]; by try discriminate.
  - intros e Hs. induction n as [|n [IHn IHl]]; [done |].
    change (mjoin (replicate (S n) (one_run_calls env))) with (one_run_calls env ++ mjoin (replicate n (one_run_calls env)))%list. rewrite navigations_app, log_entries_app, IHn, IHl.
    destruct env as [[|e0] [e'|]]; try discriminate;
      cbn in Hs; by injection Hs as ->.
Qed.

Lemma invoke_times_no_guard_witness :
  signOut_settles cooperative = Fulfilled ∧
  ∃ w', invoke_times cooperative 2 (fresh (Some ada) false) = (Returned tt, w') ∧
        signOut_calls (emitted (fresh (Some ada) false) w') = [auth; auth] ∧
        navigations (emitted (fresh (Some ada) false) w') = ["/home"; "/home"].
Proof.
  split; [reflexivity |].
  destruct (invoke_times_no_guard cooperative 2 (fresh (Some ada) false))
    as (w' & Hrun & _ & Hcalls & Hnav & _).
  exists w'. split; [exact Hrun |]. split; [exact Hcalls |].
  apply Hnav. reflexivity.
Defined.

(* ===================================================================== *)
(** ** More on the rendered view *)
(* ===================================================================== *)

(** X6: the view holds the sign-out control exactly when [loading] is
    false, and the [onClick] of that control is the only function-valued
    prop of the whole view: neither the profile button nor the [button]
    around it has a handler. *)
Theorem UserPage_only_handler (env : Env) (w : World) :
  ∃ view,
    UserPage env w = (Returned view, w) ∧
    handler_props view =
      (if loading (session w) then [] else [("GreenCoverButton", "onClick")]) ∧
    length (elements_by_tag "GreenCoverButton" view) =
      (if loading (session w) then 0 else 1)%nat.
Proof.
  unfold UserPage, bind, useAuth, useNavigate, ret.
  destruct (loading (session w)); [by eexists |].
  destruct (user (session w)); by eexists.
Qed.



(** X8: the email line has no fallback.  With a user present, the line
    shows [user.email] as it is after the label; a [null], [undefined] or
    empty email leaves the label alone, and no N/A is shown there. *)
Theorem UserPage_email_line (env : Env) (w : World) (e d : JsVal) :
  session w = {| user := Some {| email := e; displayName := d |};
                 loading := false |} →
  ∃ view line,
    UserPage env w = (Returned view, w) ∧
    descend [1; 0; 1] view = Some line ∧
    child 2 line = Some (Txt e) ∧
    textContent line = "Email: " +:+ js_text e ∧
    (truthy e = false →
       textContent line = "Email: " ∧
       includes "N/A" (textContent line) = false).
Proof.
  intros Hs. unfold UserPage, bind, useAuth, useNavigate, ret.
  rewrite Hs. cbn [loading user].
  eexists _, _. split; [reflexivity |]. split; [reflexivity |].
  split; [reflexivity |]. split.
  - cbn. by rewrite !append_nil_r.
  - intros He. cbn. rewrite !append_nil_r.
    assert (js_text e = "") as ->; [| done].
    destruct e as [| |s]; try done. cbn in He.
    by apply negb_false_iff, String.eqb_eq in He as ->.
Qed.

Lemma UserPage_email_line_witness :
  ∃ view line,
    UserPage cooperative
      (fresh (Some {| email := JNull; displayName := JString "Ada" |}) false)
      = (Returned view,
         fresh (Some {| email := JNull; displayName := JString "Ada" |}) false) ∧
    descend [1; 0; 1] view = Some line ∧
    textContent line = "Email: ".
Proof.
  destruct (UserPage_email_line cooperative
              (fresh (Some {| email := JNull; displayName := JString "Ada" |}) false)
              JNull (JString "Ada") eq_refl)
    as (view & line & Hrun & Hline & _ & _ & Hfalsy).
  exists view, line. split; [exact Hrun |]. split; [exact Hline |].
  apply Hfalsy. reflexivity.
Defined.

(** X9: the view depends on the display name only through
    [displayName || 'N/A']: two users with the same email render alike
    exactly when that expression agrees.  So a user without display name
    ([undefined], [null] or empty) cannot be told from a user whose display
    name is the string N/A. *)
Theorem render_displayName_up_to_fallback
    (env : Env) (tr : list Event) (e d1 d2 : JsVal) :
  let w d := {| session := {| user := Some {| email := e; displayName := d |};
                              loading := false |};
                events := tr |} in
  (render env (w d1) = render env (w d2) ↔
     js_or d1 (JString "N/A") = js_or d2 (JString "N/A")) ∧
  render env (w JUndefined) = render env (w (JString "N/A")) ∧
  render env (w JNull) = render env (w (JString "N/A")) ∧
  render env (w (JString "")) = render env (w (JString "N/A")).
Proof.
  cbv zeta. split; [| by repeat split]. split.
  - intros H.
    destruct (displayName_slot env
                {| session := {| user := Some {| email := e; displayName := d1 |};
                                 loading := false |}; events := tr |} e d1 eq_refl)
      as (v1 & Hr1 & Hs1 & _).
    destruct (displayName_slot env
                {| session := {| user := Some {| email := e; displayName := d2 |};
                                 loading := false |}; events := tr |} e d2 eq_refl)
      as (v2 & Hr2 & Hs2 & _).
    unfold render in H. rewrite Hr1, Hr2 in H. cbn in H. injection H as ->.
    rewrite Hs1 in Hs2. by injection Hs2.
  - intros H. unfold render, UserPage, bind, useAuth, useNavigate, ret.
    cbn. by rewrite H.
Qed.



(* ===================================================================== *)
(** ** More on the catalog *)
(* ===================================================================== *)

(** X11: the keys of the catalog are unambiguous: no two columns share a
    [uid] or a header, no two status options share a label, the typedef
    declares no property twice, and an entry of [statusOptions] or of
    [columns] is determined by its [uid]. *)
Theorem catalog_keys_unique :
  NoDup (uids columns) ∧ NoDup (names columns) ∧
  NoDup (names statusOptions) ∧ NoDup declared_fields ∧
  (∀ a b, a ∈ statusOptions → b ∈ statusOptions → uid a = uid b → a = b) ∧
  (∀ a b, a ∈ columns → b ∈ columns → uid a = uid b → a = b).
Proof.
  repeat split; try (apply (bool_decide_unpack _); by vm_compute).
  - intros a b Ha Hb. cbv [statusOptions] in Ha, Hb.
    repeat (apply elem_of_cons in Ha as [-> | Ha]);
    repeat (apply elem_of_cons in Hb as [-> | Hb]);
    try (by apply elem_of_nil in Ha); try (by apply elem_of_nil in Hb);
    cbn; (done || discriminate).
  - intros a b Ha Hb. cbv [columns] in Ha, Hb.
    repeat (apply elem_of_cons in Ha as [-> | Ha]);
    repeat (apply elem_of_cons in Hb as [-> | Hb]);
    try (by apply elem_of_nil in Ha); try (by apply elem_of_nil in Hb);
    cbn; (done || discriminate).
Qed.

(** X12: the columns other than the sentinel are patientName,
    diagnosisDate and status, and each projects a property the typedef
    declares as a string; a column has no such property exactly when it is
    the [actions] column, which is the last one. *)
Theorem data_columns_project_strings :
  uids data_columns = ["patientName"; "diagnosisDate"; "status"] ∧
  Forall (λ c, field_type (uid c) = Some TString) data_columns ∧
  (∀ c, c ∈ columns → field_type (uid c) = None ↔ uid c = actions_sentinel) ∧
  last columns = Some {| name := "ACTIONS"; uid := actions_sentinel |}.
Proof.
  split; [reflexivity |]. split; [by repeat constructor |].
  split; [| reflexivity].
  intros c Hc. cbv [columns] in Hc.
  repeat (apply elem_of_cons in Hc as [-> | Hc]);
    try (by apply elem_of_nil in Hc); by split.
Qed.
